(** * Incremental batch ingestion: the loader and its Batch Source

    A shallow embedding of [src/loader.py] (the ingestion loop) and of
    [src/batch_api/app.py] (the HTTP file server it talks to), with the
    properties of the ingestion loop proved over it.

    The program is effectful Python: it prints, performs HTTP requests,
    reads and appends to a warehouse table, and raises and catches
    exceptions.  Effects are modelled by a small monad that threads the
    external world, collects what is printed and carries either a value or
    the exception that was raised.  Text is ASCII text. *)

From Stdlib Require Import ZArith List String Ascii Bool Lia.
From Stdlib Require Import DecimalString DecimalPos.
Import ListNotations.

Local Open Scope string_scope.
Local Open Scope Z_scope.

(** ** Python built-ins on [str] and [int] *)

Module Py.

(** The ASCII characters [str.strip] and [int] treat as whitespace. *)
Definition isspace (c : ascii) : bool :=
  let n := nat_of_ascii c in
  ((9 <=? n) && (n <=? 13) || (28 <=? n) && (n <=? 32))%nat.

Fixpoint lstrip (s : string) : string :=
  match s with
  | EmptyString => EmptyString
  | String c r => if isspace c then lstrip r else s
  end.

Fixpoint rstrip (s : string) : string :=
  match s with
  | EmptyString => EmptyString
  | String c r =>
      match rstrip r with
      | EmptyString => if isspace c then EmptyString else String c EmptyString
      | r' => String c r'
      end
  end.

(** [s.strip()] *)
Definition strip (s : string) : string := rstrip (lstrip s).

Definition islower (c : ascii) : bool :=
  let n := nat_of_ascii c in ((97 <=? n) && (n <=? 122))%nat.

Definition upper_char (c : ascii) : ascii :=
  if islower c then ascii_of_nat (nat_of_ascii c - 32) else c.

(** [s.upper()] *)
Fixpoint upper (s : string) : string :=
  match s with
  | EmptyString => EmptyString
  | String c r => String (upper_char c) (upper r)
  end.

Definition digit_val (c : ascii) : option Z :=
  let n := nat_of_ascii c in
  if ((48 <=? n) && (n <=? 57))%nat then Some (Z.of_nat (n - 48)) else None.

(** The digit part of an integer literal: decimal digits, where a single
    underscore may stand between two digits.  [after_digit] tells whether
    the character just read was a digit. *)
Fixpoint int_digits (acc : Z) (after_digit : bool) (s : string) : option Z :=
  match s with
  | EmptyString => if after_digit then Some acc else None
  | String c r =>
      match digit_val c with
      | Some d => int_digits (10 * acc + d) true r
      | None =>
          if Ascii.eqb c "_" && after_digit then int_digits acc false r
          else None
      end
  end.

(** [int(s)] on a string: surrounding whitespace is ignored, one sign is
    allowed, anything else than an integer literal is a [ValueError]
    ([None] here). *)
Definition int (s : string) : option Z :=
  match strip s with
  | String "+" r => int_digits 0 false r
  | String "-" r => option_map Z.opp (int_digits 0 false r)
  | t => int_digits 0 false t
  end.

(** [str(n)] on an integer. *)
Definition str_of_int (z : Z) : string := NilZero.string_of_int (Z.to_int z).

End Py.

(** ** Values, frames, exceptions *)

(** A scalar as it sits in a frame cell or a table cell. *)
Inductive value :=
| VInt (n : Z)
| VStr (s : string)
| VNull.

Definition value_eq_dec (a b : value) : {a = b} + {a <> b}.
Proof. decide equality; [apply Z.eq_dec | apply string_dec]. Defined.

Definition value_eqb (a b : value) : bool :=
  if value_eq_dec a b then true else false.

(** [str(v)], as [astype(str)] applies it to every cell. *)
Definition value_str (v : value) : string :=
  match v with
  | VInt n => Py.str_of_int n
  | VStr s => s
  | VNull => "nan"
  end.

(** The exceptions the program can meet; all are subclasses of Python's
    [Exception]. *)
Inductive Exn :=
| ConnectionError                   (* requests: no answer from the server *)
| HTTPError (status : Z)            (* requests: [raise_for_status] *)
| EmptyDataError                    (* pandas: nothing to parse *)
| ParserError (msg : string)        (* pandas: malformed text *)
| KeyError (missing : list string)  (* pandas: label not among the columns *)
| AttributeError (msg : string)
| ValueError (msg : string)
| OperationalError (msg : string)   (* warehouse: the connection is gone *)
| ProgrammingError (msg : string).  (* warehouse: the statement is refused *)

(** A pandas frame, column by column: [len(df)] and the labelled columns
    in order.  Labels need not be distinct. *)
Record DataFrame := mkFrame {
  nrows : nat;
  series : list (string * list value)
}.

Module Frame.

(** [df.columns] *)
Definition columns (df : DataFrame) : list string := map fst (series df).

(** [len(df)] *)
Definition len (df : DataFrame) : nat := nrows df.

Definition has_label (l : string) (df : DataFrame) : bool :=
  existsb (String.eqb l) (columns df).

(** The columns of [df] labelled [l], in frame order. *)
Definition labelled (l : string) (df : DataFrame) : list (string * list value) :=
  filter (fun c => String.eqb (fst c) l) (series df).

(** [df.columns = new] for a list [new] as long as [df.columns]. *)
Definition set_columns (new : list string) (df : DataFrame) : DataFrame :=
  mkFrame (nrows df) (combine new (map snd (series df))).

(** [df[l] = v] for a scalar [v]: every column labelled [l] is overwritten;
    when there is none, a new last column is added. *)
Definition setitem (l : string) (v : value) (df : DataFrame) : DataFrame :=
  let fill := repeat v (nrows df) in
  if has_label l df
  then mkFrame (nrows df)
         (map (fun c => if String.eqb (fst c) l then (fst c, fill) else c) (series df))
  else mkFrame (nrows df) (series df ++ [(l, fill)]).

(** [df[keys]] for a list of labels: the columns labelled by each key in
    turn (all of them when a label repeats); a key that labels no column
    is a [KeyError] naming every such key. *)
Definition getitem_list (keys : list string) (df : DataFrame) : Exn + DataFrame :=
  match filter (fun k => negb (has_label k df)) keys with
  | [] => inr (mkFrame (nrows df) (flat_map (fun k => labelled k df) keys))
  | missing => inl (KeyError missing)
  end.

(** [df[l].astype(str).tolist()]: [df[l]] is one column (a Series) when the
    label is unique, and a frame, which has no [tolist], when it repeats. *)
Definition getitem_astype_str_tolist (l : string) (df : DataFrame) : Exn + list string :=
  match labelled l df with
  | [] => inl (KeyError [l])
  | [c] => inr (map value_str (snd c))
  | _ => inl (AttributeError "'DataFrame' object has no attribute 'tolist'")
  end.

(** The rows of a frame, each as the list of its labelled cells. *)
Definition rows (df : DataFrame) : list (list (string * value)) :=
  map (fun i => map (fun c => (fst c, nth i (snd c) VNull)) (series df))
      (seq 0 (nrows df)).

End Frame.

(** ** The external world *)

Record Response := mkResponse { status_code : Z; text : string }.

(** A table row: its cells by column name. *)
Definition Row : Type := list (string * value).

(** Batch Source: whether the server answers at all, and the files in its
    working directory by relative path. *)
Record BatchSource := mkSource {
  reachable : bool;
  files : list (string * string)
}.

(** Table Store, seen through the one connection [conn] the loader opens at
    start-up.  [conn_ttl] counts the statements the connection still
    carries before it drops ([None]: it never drops); [ORDERS] is the
    table, [None] when it does not exist. *)
Record TableStore := mkStore {
  conn_ttl : option nat;
  ORDERS : option (list Row)
}.

Record World := mkWorld {
  source : BatchSource;
  store : TableStore
}.

(** What the loader prints, one constructor per [print] of the source. *)
Inductive Event :=
| AlreadyLoaded (loaded : list value)
| Skipping (batch_id : string)
| Ingesting (batch_id : string)
| Loaded (batch_id : string) (rows : nat)
| ErrorLoading (batch_id : string) (e : Exn).

(** ** The effect monad: world, printed output, exceptions *)

Inductive Result (A : Type) :=
| Ok (a : A)
| Raise (e : Exn).
Arguments Ok {A} a.
Arguments Raise {A} e.

Record Run (A : Type) := mkRun {
  res : Result A;
  final : World;
  out : list Event
}.
Arguments mkRun {A}.
Arguments res {A}.
Arguments final {A}.
Arguments out {A}.

Definition M (A : Type) : Type := World -> Run A.

Definition ret {A} (a : A) : M A := fun w => mkRun (Ok a) w [].

Definition raise {A} (e : Exn) : M A := fun w => mkRun (Raise e) w [].

Definition bind {A B} (m : M A) (f : A -> M B) : M B := fun w =>
  let r := m w in
  match res r with
  | Ok a => let r' := f a (final r) in mkRun (res r') (final r') (out r ++ out r')
  | Raise e => mkRun (Raise e) (final r) (out r)
  end.

Notation "x <- m ;; k" := (bind m (fun x => k))
  (at level 61, m at next level, right associativity).
Notation "m ;; k" := (bind m (fun _ => k))
  (at level 61, right associativity).

(** [try: body  except Exception as e: handler e] *)
Definition try_except {A} (body : M A) (handler : Exn -> M A) : M A := fun w =>
  let r := body w in
  match res r with
  | Ok _ => r
  | Raise e => let r' := handler e (final r) in
               mkRun (res r') (final r') (out r ++ out r')
  end.

Definition lift {A} (x : Exn + A) : M A :=
  match x with inl e => raise e | inr a => ret a end.

Definition print (ev : Event) : M unit := fun w => mkRun (Ok tt) w [ev].

(** [for x in l: body x] *)
Fixpoint for_each {A} (body : A -> M unit) (l : list A) : M unit :=
  match l with
  | [] => ret tt
  | x :: l' => body x ;; for_each body l'
  end.

(** ** Small string and list helpers *)

Fixpoint strip_prefix (p s : string) : option string :=
  match p with
  | EmptyString => Some s
  | String a p' =>
      match s with
      | String b s' => if Ascii.eqb a b then strip_prefix p' s' else None
      | EmptyString => None
      end
  end.

Fixpoint contains (c : ascii) (s : string) : bool :=
  match s with
  | EmptyString => false
  | String a r => Ascii.eqb a c || contains c r
  end.

Fixpoint lookup {V} (k : string) (l : list (string * V)) : option V :=
  match l with
  | [] => None
  | (k', v) :: l' => if String.eqb k k' then Some v else lookup k l'
  end.

Fixpoint nodupb (l : list string) : bool :=
  match l with
  | [] => true
  | x :: l' => negb (existsb (String.eqb x) l') && nodupb l'
  end.

(** ** src/batch_api/app.py: the Batch Source server *)

Module app.

Definition DATA_DIR : string := "data".
Definition BATCH_CSV : string := "batch_list.csv".

(** [os.path.isfile] *)
Definition isfile (fs : list (string * string)) (path : string) : bool :=
  match lookup path fs with Some _ => true | None => false end.

(** [os.path.join(dir, name)] for a relative [name]. *)
Definition path_join (dir name : string) : string := dir ++ "/" ++ name.

(** [send_file(path, mimetype="text/csv")]: the file's text; a file that
    is not there makes the handler fail, which the framework answers
    with status 500. *)
Definition send_file (fs : list (string * string)) (path : string) : Response :=
  match lookup path fs with
  | Some body => mkResponse 200 body
  | None => mkResponse 500 "Internal Server Error"
  end.

(** [abort(code, description=...)] *)
Definition abort (code : Z) (description : string) : Response :=
  mkResponse code description.

(** Endpoint 1: the list of batch identifiers. *)
Definition get_batch_ids (fs : list (string * string)) : Response :=
  send_file fs BATCH_CSV.

(** Endpoint 2: the data of one batch. *)
Definition get_batch_data (fs : list (string * string)) (batch_id : string) : Response :=
  let file_path := path_join DATA_DIR (batch_id ++ ".csv") in
  if negb (isfile fs file_path)
  then abort 404 "Batch data not found"
  else send_file fs file_path.

(** The two routes.  [<batch_id>] matches one non-empty path segment; a
    path no route matches is answered with 404. *)
Definition dispatch (fs : list (string * string)) (path : string) : Response :=
  if String.eqb path "/api/batches/batch_list.csv" then get_batch_ids fs
  else
    match strip_prefix "/api/batch_data/" path with
    | Some batch_id =>
        if String.eqb batch_id "" || contains "/" batch_id
        then abort 404 "Not Found"
        else get_batch_data fs batch_id
    | None => abort 404 "Not Found"
    end.

End app.

(** ** The loader's view of its collaborators *)

(** The connection carries one more statement, or has dropped. *)
Definition tick (ttl : option nat) : option (option nat) :=
  match ttl with
  | None => Some None
  | Some O => None
  | Some (S k) => Some (Some k)
  end.

Definition with_ttl (ttl : option nat) (w : World) : World :=
  mkWorld (source w) (mkStore ttl (ORDERS (store w))).

Definition with_ORDERS (t : list Row) (w : World) : World :=
  mkWorld (source w) (mkStore (conn_ttl (store w)) (Some t)).

(** The BATCH_ID cell of a table row (NULL when the row has none). *)
Definition batch_id_cell (row : Row) : value :=
  match lookup "BATCH_ID" row with Some v => v | None => VNull end.

(** A Python set of scalars, kept as a duplicate-free list. *)
Definition py_set (l : list value) : list value := nodup value_eq_dec l.

(** [n in s] for an integer [n]: some element equals it. *)
Definition py_in (n : Z) (s : list value) : bool := existsb (value_eqb (VInt n)) s.

(** [int(s)], raising [ValueError] on anything else than an integer literal. *)
Definition int_ (s : string) : M Z :=
  match Py.int s with
  | Some n => ret n
  | None => raise (ValueError ("invalid literal for int() with base 10: " ++ s))
  end.

(** [requests.get(url)]: the server's answer to the path of [url], or a
    [ConnectionError] when nothing answers at that address.  The path
    reaches the router as it is written, which is how the characters of an
    integer literal (digits, sign, underscore) travel. *)
Definition requests_get (url : string) : M Response := fun w =>
  if reachable (source w) then
    match strip_prefix "http://localhost:5000" url with
    | Some path => mkRun (Ok (app.dispatch (files (source w)) path)) w []
    | None => mkRun (Raise ConnectionError) w []
    end
  else mkRun (Raise ConnectionError) w [].

(** [r.raise_for_status()]: statuses 400 to 599 raise. *)
Definition raise_for_status (r : Response) : M unit :=
  if (400 <=? status_code r) && (status_code r <? 600)
  then raise (HTTPError (status_code r))
  else ret tt.

(** [cur.execute("SELECT DISTINCT BATCH_ID FROM ORDERS")] followed by
    [cur.fetchall()]: one row of one cell per distinct value. *)
Definition select_distinct_batch_id : M (list (list value)) := fun w =>
  match tick (conn_ttl (store w)) with
  | None => mkRun (Raise (OperationalError "connection lost")) w []
  | Some ttl =>
      match ORDERS (store w) with
      | None => mkRun (Raise (ProgrammingError "table ORDERS does not exist"))
                      (with_ttl ttl w) []
      | Some t => mkRun (Ok (map (fun v => [v]) (nodup value_eq_dec (map batch_id_cell t))))
                        (with_ttl ttl w) []
      end
  end.

Definition REQUIRED : list string := ["BATCH_ID"; "ORDER_ID"; "AMOUNT"].

(** ** A plain CSV reader and sample worlds, for worked examples *)

Module Sample.

Fixpoint split_aux (sep : ascii) (cur : string) (s : string) : list string :=
  match s with
  | EmptyString => [cur]
  | String c r =>
      if Ascii.eqb c sep then cur :: split_aux sep EmptyString r
      else split_aux sep (cur ++ String c EmptyString) r
  end.

Definition split (sep : ascii) (s : string) : list string := split_aux sep EmptyString s.

(** A cell: an integer literal is an integer, an empty field is missing,
    anything else is text. *)
Definition cell (s : string) : value :=
  match s with
  | EmptyString => VNull
  | String "-" r =>
      match Py.int_digits 0 false r with Some n => VInt (- n) | None => VStr s end
  | _ => match Py.int_digits 0 false s with Some n => VInt n | None => VStr s end
  end.

(** Comma-separated fields, one record per line, the first line the
    header; blank lines are skipped; an empty text is an [EmptyDataError]. *)
Definition read_csv (text : string) : Exn + DataFrame :=
  let lines := filter (fun l => negb (String.eqb l "")) (split "010" text) in
  match lines with
  | [] => inl EmptyDataError
  | header :: recs =>
      let fields := map (split ",") recs in
      let labels := split "," header in
      inr (mkFrame (List.length recs)
             (map (fun j => (nth j labels "", map (fun f => cell (nth j f "")) fields))
                  (seq 0 (List.length labels))))
  end.

Definition accept_all (df : DataFrame) : bool := true.

Definition nl : string := String "010" EmptyString.

Definition orders_1 : string := " order_id ,Amount" ++ nl ++ "100,5" ++ nl ++ "101,7" ++ nl.
Definition orders_3 : string := "order_id,amount,note" ++ nl ++ "300,9,x" ++ nl.

(** Batch Source listing the batches 1, 2 and 3, with no data file for 2. *)
Definition source_123 : BatchSource :=
  mkSource true
    [ ("batch_list.csv", "batch_id" ++ nl ++ "1" ++ nl ++ "2" ++ nl ++ "3" ++ nl);
      ("data/1.csv", orders_1);
      ("data/3.csv", orders_3) ].

Definition empty_store : TableStore := mkStore None (Some []).

Definition world_123 : World := mkWorld source_123 empty_store.



(** Batches 10 and 11 are in ORDERS; Batch Source lists 10, 11 and 12. *)
Definition world_skip : World :=
  mkWorld
    (mkSource true
       [ ("batch_list.csv", "batch_id" ++ nl ++ "10" ++ nl ++ "11" ++ nl ++ "12" ++ nl);
         ("data/12.csv", "order_id,amount" ++ nl ++ "1200,4" ++ nl) ])
    (mkStore None
       (Some [ [("BATCH_ID", VInt 10); ("ORDER_ID", VInt 1000); ("AMOUNT", VInt 1)];
               [("BATCH_ID", VInt 11); ("ORDER_ID", VInt 1100); ("AMOUNT", VInt 2)] ])).



(** Batch Source has lost its list file. *)
Definition world_no_list : World :=
  mkWorld (mkSource true [ ("data/1.csv", orders_1) ]) empty_store.


(** Batch 9 is listed and its data file holds a header and no row. *)
Definition world_empty_batch : World :=
  mkWorld
    (mkSource true
       [ ("batch_list.csv", "batch_id" ++ nl ++ "9" ++ nl);
         ("data/9.csv", "order_id,amount" ++ nl) ])
    empty_store.

(** The list file spells its header Batch_ID. *)
Definition world_catalog_case : World :=
  mkWorld
    (mkSource true
       [ ("batch_list.csv", "Batch_ID" ++ nl ++ "1" ++ nl);
         ("data/1.csv", orders_1) ])
    empty_store.

(** A payload without an amount column. *)
Definition world_no_amount : World :=
  mkWorld
    (mkSource true [ ("data/5.csv", "Order_Id,qty" ++ nl ++ "500,2" ++ nl) ])
    empty_store.

End Sample.

(** ** Vocabulary of the statements *)

(** An identifier that [int] accepts. *)
Definition int_valued (s : string) : Prop := Py.int s <> None.

Definition int_valuedb (s : string) : bool :=
  match Py.int s with Some _ => true | None => false end.

(** The identifiers before the first one that [int] refuses. *)
Fixpoint int_prefix (ids : list string) : list string :=
  match ids with
  | [] => []
  | id :: rest => if int_valuedb id then id :: int_prefix rest else []
  end.

(** Whether the integer value of [id] is in the loaded set. *)
Definition is_loaded (loaded : list value) (id : string) : bool :=
  match Py.int id with
  | Some n => py_in n loaded
  | None => false
  end.

(** The skip-or-ingest decision printed for an identifier. *)
Definition decision (loaded : list value) (id : string) : Event :=
  if is_loaded loaded id then Skipping id else Ingesting id.

Definition is_decision (ev : Event) : bool :=
  match ev with
  | Skipping _ | Ingesting _ => true
  | _ => false
  end.

(** The decisions among what a run printed, in order. *)
Definition decisions (evs : list Event) : list Event := filter is_decision evs.

(** The identifiers [ingest_batch] was announced for, in order. *)
Fixpoint ingested_ids (evs : list Event) : list string :=
  match evs with
  | [] => []
  | Ingesting id :: evs' => id :: ingested_ids evs'
  | _ :: evs' => ingested_ids evs'
  end.



(** The sum of the row counts a run printed. *)
Fixpoint logged_rows (evs : list Event) : nat :=
  match evs with
  | [] => O
  | Loaded _ k :: evs' => (k + logged_rows evs')%nat
  | _ :: evs' => logged_rows evs'
  end.

(** Every character of [s] satisfies [p]. *)
Fixpoint all_chars (p : ascii -> bool) (s : string) : bool :=
  match s with
  | EmptyString => true
  | String c r => p c && all_chars p r
  end.

Definition is_digit (c : ascii) : bool :=
  match Py.digit_val c with Some _ => true | None => false end.

(** A text that is empty or starts with a character that is no whitespace. *)
Definition starts_clean (s : string) : Prop :=
  match s with
  | EmptyString => True
  | String c _ => Py.isspace c = false
  end.

(** The distinct BATCH_ID values of a table. *)
Definition batch_ids_of (t : list Row) : list value :=
  nodup value_eq_dec (map batch_id_cell t).

(** A status [raise_for_status] lets pass. *)
Definition status_ok (r : Response) : bool :=
  negb ((400 <=? status_code r) && (status_code r <? 600)).

(** The answer of Batch Source to the data request for [id]. *)
Definition data_response (w : World) (id : string) : Response :=
  app.dispatch (files (source w)) ("/api/batch_data/" ++ id).

(** [col.strip().upper()] *)
Definition normalize (col : string) : string := Py.upper (Py.strip col).

(** The frame [ingest_batch] selects from: columns renamed, BATCH_ID set. *)
Definition prepared (n : Z) (df : DataFrame) : DataFrame :=
  Frame.setitem "BATCH_ID" (VInt n)
    (Frame.set_columns (map (fun col => Py.upper (Py.strip col)) (Frame.columns df)) df).

(** The table row written for row [i] of a batch. *)
Definition order_row (n : Z) (order_ids amounts : list value) (i : nat) : Row :=
  [ ("BATCH_ID", VInt n);
    ("ORDER_ID", nth i order_ids VNull);
    ("AMOUNT", nth i amounts VNull) ].

(** ** src/loader.py: the loader *)

Section Loader.

(** [pd.read_csv(StringIO(text))]: the frame parsed from a CSV text, or the
    exception the parser raises. *)
Variable read_csv : string -> Exn + DataFrame.

(** The warehouse's own checks (types, constraints) on a frame it is asked
    to append to ORDERS. *)
Variable table_accepts : DataFrame -> bool.

(** [write_pandas(conn, df, table_name="ORDERS")]: one bulk append of all
    the rows of [df].  It needs the connection and the table; the frame is
    serialised column by column, which refuses repeated column labels; the
    warehouse may refuse the frame; nothing is appended unless all is. *)
Definition write_pandas (df : DataFrame) : M unit := fun w =>
  match tick (conn_ttl (store w)) with
  | None => mkRun (Raise (OperationalError "connection lost")) w []
  | Some ttl =>
      match ORDERS (store w) with
      | None => mkRun (Raise (ProgrammingError "table ORDERS does not exist"))
                      (with_ttl ttl w) []
      | Some t =>
          if negb (nodupb (Frame.columns df))
          then mkRun (Raise (ValueError "Duplicate column names found"))
                     (with_ttl ttl w) []
          else if table_accepts df
          then mkRun (Ok tt) (with_ORDERS (t ++ Frame.rows df) (with_ttl ttl w)) []
          else mkRun (Raise (ProgrammingError "frame refused")) (with_ttl ttl w) []
      end
  end.

(** To fetch existing batch IDs. *)
Definition get_loaded_batches : M (list value) :=
  rows <- select_distinct_batch_id ;;
  ret (py_set (map (fun row => nth 0 row VNull) rows)).

(** Get list of batch IDs from API. *)
Definition get_batch_ids : M (list string) :=
  r <- requests_get "http://localhost:5000/api/batches/batch_list.csv" ;;
  raise_for_status r ;;
  df <- lift (read_csv (text r)) ;;
  lift (Frame.getitem_astype_str_tolist "batch_id" df).

(** The body of the [try] of [ingest_batch]. *)
Definition ingest_batch_body (batch_id : string) : M unit :=
  let url := "http://localhost:5000/api/batch_data/" ++ batch_id in
  r <- requests_get url ;;
  raise_for_status r ;;
  df <- lift (read_csv (text r)) ;;
  let df := Frame.set_columns
              (map (fun col => Py.upper (Py.strip col)) (Frame.columns df)) df in
  n <- int_ batch_id ;;
  let df := Frame.setitem "BATCH_ID" (VInt n) df in
  sel <- lift (Frame.getitem_list REQUIRED df) ;;
  write_pandas sel ;;
  print (Loaded batch_id (Frame.len df)).

(** Ingest batch.  The function has no [return]: what it yields is
    Python's [None], on every path. *)
Definition ingest_batch (batch_id : string) : M (option nat) :=
  try_except (ingest_batch_body batch_id)
             (fun e => print (ErrorLoading batch_id e)) ;;
  ret None.

(** One turn of the loop of the main block. *)
Definition loop_body (loaded_batches : list value) (batch_id : string) : M unit :=
  n <- int_ batch_id ;;
  if py_in n loaded_batches
  then print (Skipping batch_id)
  else (print (Ingesting batch_id) ;;
        ingest_batch batch_id ;;
        ret tt).

Definition main_loop (loaded_batches : list value) (ids : list string) : M unit :=
  for_each (loop_body loaded_batches) ids.

(** The main block. *)
Definition main : M unit :=
  loaded_batches <- get_loaded_batches ;;
  print (AlreadyLoaded loaded_batches) ;;
  ids <- get_batch_ids ;;
  main_loop loaded_batches ids.

(** The answer of Batch Source to the listing request. *)
Definition list_response (w : World) : Response := app.get_batch_ids (files (source w)).

(** What a successful pass through the body did. *)
Definition body_ok (id : string) (w : World) (df : DataFrame) (n : Z)
           (sel : DataFrame) (t : list Row) (ttl : option nat) : Prop :=
  reachable (source w) = true
  /\ status_ok (data_response w id) = true
  /\ read_csv (text (data_response w id)) = inr df
  /\ Py.int id = Some n
  /\ Frame.getitem_list REQUIRED (prepared n df) = inr sel
  /\ nodupb (Frame.columns sel) = true
  /\ table_accepts sel = true
  /\ tick (conn_ttl (store w)) = Some ttl
  /\ ORDERS (store w) = Some t.

(** ** Basic facts *)

Lemma py_in_In (n : Z) (s : list value) : py_in n s = true <-> In (VInt n) s.
Proof.
unfold py_in. rewrite existsb_exists. split.
- intros (v & Hin & Heq). unfold value_eqb in Heq.
  destruct (value_eq_dec (VInt n) v); [subst; assumption | discriminate].
- intros Hin. exists (VInt n). split; [assumption |].
  unfold value_eqb. destruct (value_eq_dec (VInt n) (VInt n)); congruence.
Qed.

Lemma int_valuedb_true (s : string) : int_valuedb s = true <-> int_valued s.
Proof.
unfold int_valuedb, int_valued. destruct (Py.int s); split; congruence.
Qed.

Lemma is_loaded_cases (loaded : list value) (id : string) :
int_valued id ->
exists n, Py.int id = Some n
     /\ (is_loaded loaded id = true /\ py_in n loaded = true
         \/ is_loaded loaded id = false /\ py_in n loaded = false).
Proof.
unfold int_valued, is_loaded. intros Hv.
destruct (Py.int id) as [n |]; [| congruence].
exists n. split; [reflexivity |]. destruct (py_in n loaded); auto.
Qed.



Lemma none_refused (ids : list string) :
Forall int_valued ids -> find (fun id => negb (int_valuedb id)) ids = None.
Proof.
induction 1 as [| id rest Hid _ IH]; cbn [find]; [reflexivity |].
apply int_valuedb_true in Hid. rewrite Hid. exact IH.
Qed.



Lemma batch_ids_of_In (v : value) (t : list Row) :
In v (batch_ids_of t) <-> exists row, In row t /\ batch_id_cell row = v.
Proof.
unfold batch_ids_of. rewrite nodup_In, in_map_iff. split.
- intros (row & H1 & H2). exists row. auto.
- intros (row & H1 & H2). exists row. auto.
Qed.




Lemma int_prefix_all (ids : list string) :
Forall int_valued ids -> int_prefix ids = ids.
Proof.
induction 1 as [| id rest Hid _ IH]; simpl; [reflexivity |].
apply int_valuedb_true in Hid. rewrite Hid, IH. reflexivity.
Qed.

Lemma int_prefix_valued (ids : list string) : Forall int_valued (int_prefix ids).
Proof.
induction ids as [| id rest IH]; simpl; [constructor |].
destruct (int_valuedb id) eqn:E; constructor; [| assumption].
apply int_valuedb_true. assumption.
Qed.


(** *** Integer literals and their text *)
Lemma digits_of_uint (d : Decimal.uint) :
  all_chars is_digit (NilEmpty.string_of_uint d) = true.
Proof. induction d; cbn [NilEmpty.string_of_uint all_chars]; rewrite ?IHd; reflexivity. Qed.

Lemma digit_not_space (c : ascii) : is_digit c = true -> Py.isspace c = false.
Proof. destruct c as [[] [] [] [] [] [] [] []]; vm_compute; congruence. Qed.

Lemma rstrip_no_space (s : string) :
  all_chars (fun c => negb (Py.isspace c)) s = true -> Py.rstrip s = s.
Proof.
  induction s as [| c r IH]; cbn [all_chars Py.rstrip]; [reflexivity |].
  rewrite andb_true_iff, negb_true_iff. intros [Hc Hr].
  rewrite (IH Hr), Hc. destruct r; reflexivity.
Qed.

Lemma all_chars_weaken (p q : ascii -> bool) (s : string) :
  (forall c, p c = true -> q c = true) -> all_chars p s = true -> all_chars q s = true.
Proof.
  intros Hpq. induction s as [| c r IH]; cbn [all_chars]; [reflexivity |].
  rewrite !andb_true_iff. intros [Hc Hr]. auto.
Qed.

Lemma int_digits_acc (d : Decimal.uint) (acc : positive) :
  Py.int_digits (Zpos acc) true (NilEmpty.string_of_uint d)
  = Some (Zpos (Pos.of_uint_acc d acc)).
Proof.
  revert acc. induction d; intros acc;
    cbn [NilEmpty.string_of_uint Py.int_digits Pos.of_uint_acc];
    [reflexivity | ..];
    match goal with
    | |- context [Py.digit_val ?c] =>
        let v := eval vm_compute in (Py.digit_val c) in
        change (Py.digit_val c) with v
    end; cbv beta iota;
    match goal with
    | |- Py.int_digits ?z true _ = Some (Zpos (Pos.of_uint_acc _ ?a)) =>
        replace z with (Zpos a) by lia
    end; apply IHd.
Qed.

Lemma int_digits_of_uint (d : Decimal.uint) :
  Py.int_digits 0 true (NilEmpty.string_of_uint d) = Some (Z.of_N (Pos.of_uint d)).
Proof.
  induction d;
    cbn [NilEmpty.string_of_uint Py.int_digits Pos.of_uint];
    [reflexivity | ..];
    match goal with
    | |- context [Py.digit_val ?c] =>
        let v := eval vm_compute in (Py.digit_val c) in
        change (Py.digit_val c) with v
    end; cbv beta iota;
    [exact IHd | ..];
    match goal with
    | |- Py.int_digits ?z true _ = Some (Z.of_N (Npos (Pos.of_uint_acc _ ?a))) =>
        change z with (Zpos a)
    end; apply int_digits_acc.
Qed.

Lemma int_digits_first (d : Decimal.uint) :
  d <> Decimal.Nil ->
  Py.int_digits 0 false (NilEmpty.string_of_uint d)
  = Py.int_digits 0 true (NilEmpty.string_of_uint d).
Proof. destruct d; [congruence | ..]; reflexivity. Qed.

Lemma strip_digits (d : Decimal.uint) :
  Py.strip (NilEmpty.string_of_uint d) = NilEmpty.string_of_uint d.
Proof.
  unfold Py.strip.
  assert (Hl : Py.lstrip (NilEmpty.string_of_uint d) = NilEmpty.string_of_uint d)
    by (destruct d; reflexivity).
  rewrite Hl. apply rstrip_no_space.
  apply (all_chars_weaken is_digit); [| apply digits_of_uint].
  intros c Hc. rewrite (digit_not_space c Hc). reflexivity.
Qed.

Lemma int_of_pos (p : positive) :
  Py.int (NilEmpty.string_of_uint (Pos.to_uint p)) = Some (Zpos p).
Proof.
  pose proof (DecimalPos.Unsigned.to_uint_nonnil p) as Hn.
  pose proof (DecimalPos.Unsigned.of_to p) as Hp.
  unfold Py.int. rewrite strip_digits.
  assert (Hd : Py.int_digits 0 false (NilEmpty.string_of_uint (Pos.to_uint p)) = Some (Zpos p)).
  { rewrite int_digits_first by assumption. rewrite int_digits_of_uint, Hp. reflexivity. }
  destruct (Pos.to_uint p); [congruence | ..]; exact Hd.
Qed.

(** [int(str(z)) == z] *)
Lemma int_str_of_int (z : Z) : Py.int (Py.str_of_int z) = Some z.
Proof.
  unfold Py.str_of_int. destruct z as [| p | p]; [reflexivity | |].
  - cbn [Z.to_int NilZero.string_of_int NilZero.string_of_uint].
    pose proof (DecimalPos.Unsigned.to_uint_nonnil p) as Hn.
    pose proof (int_of_pos p) as H.
    destruct (Pos.to_uint p); [congruence | ..]; exact H.
  - cbn [Z.to_int NilZero.string_of_int].
    pose proof (DecimalPos.Unsigned.to_uint_nonnil p) as Hn.
    pose proof (DecimalPos.Unsigned.of_to p) as Hp.
    assert (Hs : NilZero.string_of_uint (Pos.to_uint p)
                 = NilEmpty.string_of_uint (Pos.to_uint p))
      by (destruct (Pos.to_uint p); [congruence | ..]; reflexivity).
    rewrite Hs. unfold Py.int, Py.strip. cbn [Py.lstrip].
    replace (Py.isspace "-") with false by reflexivity.
    assert (Hr : Py.rstrip (String "-" (NilEmpty.string_of_uint (Pos.to_uint p)))
                 = String "-" (NilEmpty.string_of_uint (Pos.to_uint p))).
    { apply rstrip_no_space. cbn [all_chars].
      replace (negb (Py.isspace "-")) with true by reflexivity. cbn [andb].
      apply (all_chars_weaken is_digit); [| apply digits_of_uint].
      intros c Hc. rewrite (digit_not_space c Hc). reflexivity. }
    rewrite Hr.
    rewrite int_digits_first by assumption. rewrite int_digits_of_uint, Hp. reflexivity.
Qed.

(** *** Stripping and upper-casing *)

Lemma upper_char_space (c : ascii) : Py.isspace (Py.upper_char c) = Py.isspace c.
Proof. destruct c as [[] [] [] [] [] [] [] []]; reflexivity. Qed.

Lemma upper_char_idem (c : ascii) : Py.upper_char (Py.upper_char c) = Py.upper_char c.
Proof. destruct c as [[] [] [] [] [] [] [] []]; reflexivity. Qed.

Lemma upper_idem (s : string) : Py.upper (Py.upper s) = Py.upper s.
Proof.
  induction s as [| c r IH]; cbn [Py.upper]; [reflexivity |].
  rewrite upper_char_idem, IH. reflexivity.
Qed.

Lemma lstrip_upper (s : string) : Py.lstrip (Py.upper s) = Py.upper (Py.lstrip s).
Proof.
  induction s as [| c r IH]; cbn [Py.upper Py.lstrip]; [reflexivity |].
  rewrite upper_char_space. destruct (Py.isspace c); [exact IH | reflexivity].
Qed.

Lemma rstrip_upper (s : string) : Py.rstrip (Py.upper s) = Py.upper (Py.rstrip s).
Proof.
  induction s as [| c r IH]; cbn [Py.upper Py.rstrip]; [reflexivity |].
  rewrite IH, upper_char_space.
  destruct (Py.rstrip r); cbn [Py.upper]; [destruct (Py.isspace c) |]; reflexivity.
Qed.

Lemma strip_upper (s : string) : Py.strip (Py.upper s) = Py.upper (Py.strip s).
Proof. unfold Py.strip. rewrite lstrip_upper, rstrip_upper. reflexivity. Qed.


Lemma lstrip_clean (s : string) : starts_clean (Py.lstrip s).
Proof.
  induction s as [| c r IH]; cbn [Py.lstrip]; [exact I |].
  destruct (Py.isspace c) eqn:E; [exact IH | exact E].
Qed.

Lemma lstrip_of_clean (s : string) : starts_clean s -> Py.lstrip s = s.
Proof. destruct s as [| c r]; cbn; [reflexivity |]. intros ->. reflexivity. Qed.

Lemma rstrip_clean (s : string) : starts_clean s -> starts_clean (Py.rstrip s).
Proof.
  destruct s as [| c r]; cbn [Py.rstrip starts_clean]; [auto |].
  intros Hc. destruct (Py.rstrip r); [rewrite Hc |]; exact Hc.
Qed.

Lemma rstrip_idem (s : string) : Py.rstrip (Py.rstrip s) = Py.rstrip s.
Proof.
  induction s as [| c r IH]; cbn [Py.rstrip]; [reflexivity |].
  destruct (Py.rstrip r) as [| c' r'] eqn:E.
  - destruct (Py.isspace c) eqn:Hc; cbn [Py.rstrip]; [reflexivity |].
    rewrite Hc. reflexivity.
  - change (Py.rstrip (String c (String c' r')))
      with (match Py.rstrip (String c' r') with
            | EmptyString => if Py.isspace c then EmptyString else String c EmptyString
            | r0 => String c r0
            end).
    rewrite IH. reflexivity.
Qed.

Lemma strip_idem (s : string) : Py.strip (Py.strip s) = Py.strip s.
Proof.
  unfold Py.strip.
  rewrite (lstrip_of_clean (Py.rstrip (Py.lstrip s)))
    by (apply rstrip_clean, lstrip_clean).
  apply rstrip_idem.
Qed.

(** *** What an integer literal is made of *)





Lemma int_digits_nonempty (acc : Z) (n : Z) :
  Py.int_digits acc false "" = Some n -> False.
Proof. discriminate. Qed.


(** *** Sequencing *)

Lemma bind_ok {A B} (m : M A) (f : A -> M B) (w w' : World) (a : A) (o : list Event) :
  m w = mkRun (Ok a) w' o ->
  bind m f w = mkRun (res (f a w')) (final (f a w')) (o ++ out (f a w')).
Proof. intros H. unfold bind. rewrite H. reflexivity. Qed.

Lemma bind_pure {A B} (m : M A) (f : A -> M B) (w : World) (a : A) :
  m w = mkRun (Ok a) w [] -> bind m f w = f a w.
Proof.
  intros H. rewrite (bind_ok _ _ _ _ _ _ H). destruct (f a w); reflexivity.
Qed.

Lemma bind_raise {A B} (m : M A) (f : A -> M B) (w w' : World) (e : Exn) (o : list Event) :
  m w = mkRun (Raise e) w' o -> bind m f w = mkRun (Raise e) w' o.
Proof. intros H. unfold bind. rewrite H. reflexivity. Qed.

Lemma raise_for_status_eq (r : Response) (w : World) :
  raise_for_status r w
  = if status_ok r then mkRun (Ok tt) w []
    else mkRun (Raise (HTTPError (status_code r))) w [].
Proof.
  unfold raise_for_status, status_ok.
  destruct ((400 <=? status_code r) && (status_code r <? 600)); reflexivity.
Qed.

(** *** Frames *)

Lemma setitem_nrows (l : string) (v : value) (df : DataFrame) :
  nrows (Frame.setitem l v df) = nrows df.
Proof. unfold Frame.setitem. destruct (Frame.has_label l df); reflexivity. Qed.

Lemma prepared_nrows (n : Z) (df : DataFrame) : nrows (prepared n df) = nrows df.
Proof. unfold prepared. rewrite setitem_nrows. reflexivity. Qed.

Lemma combine_rename (f : string -> string) (cs : list (string * list value)) :
  combine (map f (map fst cs)) (map snd cs) = map (fun c => (f (fst c), snd c)) cs.
Proof. induction cs as [| c cs IH]; cbn; [| rewrite IH]; reflexivity. Qed.

Lemma set_columns_series (f : string -> string) (df : DataFrame) :
  series (Frame.set_columns (map f (Frame.columns df)) df)
  = map (fun c => (f (fst c), snd c)) (series df).
Proof. unfold Frame.set_columns, Frame.columns. cbn. apply combine_rename. Qed.


Lemma existsb_eqb_In (k : string) (l : list string) :
  existsb (String.eqb k) l = true <-> In k l.
Proof.
  rewrite existsb_exists. split.
  - intros (x & Hin & He). apply String.eqb_eq in He. subst. assumption.
  - intros Hin. exists k. split; [assumption | apply String.eqb_refl].
Qed.

Lemma has_label_In (k : string) (df : DataFrame) :
  Frame.has_label k df = true <-> In k (Frame.columns df).
Proof. apply existsb_eqb_In. Qed.

(** A column of a frame after [df[l] = v]: the filled column under [l],
    or a column of [df] under another label. *)
Lemma setitem_series_In (l : string) (v : value) (df : DataFrame)
      (k : string) (c : list value) :
  In (k, c) (series (Frame.setitem l v df)) ->
  (k = l /\ c = repeat v (nrows df)) \/ (k <> l /\ In (k, c) (series df)).
Proof.
  unfold Frame.setitem. destruct (Frame.has_label l df) eqn:Hl; cbn [series].
  - rewrite in_map_iff. intros ([k0 c0] & Heq & Hin). cbn [fst] in Heq.
    destruct (String.eqb k0 l) eqn:E.
    + apply String.eqb_eq in E. injection Heq as <- <-. left. auto.
    + apply String.eqb_neq in E. injection Heq as <- <-. right. auto.
  - rewrite in_app_iff. intros [Hin | [Heq | []]].
    + destruct (string_dec k l) as [-> | Hne].
      * assert (Hc : In l (Frame.columns df))
          by (unfold Frame.columns; apply in_map_iff; exists (l, c); auto).
        apply has_label_In in Hc. congruence.
      * right. auto.
    + injection Heq as <- <-. left. auto.
Qed.

Lemma labelled_In (k : string) (df : DataFrame) (l : string) (c : list value) :
  In (l, c) (Frame.labelled k df) <-> In (l, c) (series df) /\ l = k.
Proof.
  unfold Frame.labelled. rewrite filter_In. cbn [fst].
  rewrite String.eqb_eq. reflexivity.
Qed.

Lemma labelled_nonempty (k : string) (df : DataFrame) :
  Frame.has_label k df = true -> Frame.labelled k df <> [].
Proof.
  rewrite has_label_In. unfold Frame.columns. rewrite in_map_iff.
  intros ([l c] & Heq & Hin) Hnil. cbn [fst] in Heq. subst l.
  assert (H : In (k, c) (Frame.labelled k df)) by (apply labelled_In; auto).
  rewrite Hnil in H. destruct H.
Qed.

Lemma nodupb_app (l1 l2 : list string) :
  nodupb (l1 ++ l2) = true -> nodupb l1 = true /\ nodupb l2 = true.
Proof.
  induction l1 as [| x l1 IH]; cbn [app nodupb]; [auto |].
  rewrite !andb_true_iff, !negb_true_iff. intros [Hx Hn].
  destruct (IH Hn) as [H1 H2]. repeat split; try assumption.
  destruct (existsb (String.eqb x) l1) eqn:E; [| reflexivity].
  rewrite existsb_app, E in Hx. discriminate.
Qed.

(** Under distinct labels, a label that is present selects one column. *)
Lemma labelled_single (k : string) (df : DataFrame) :
  Frame.has_label k df = true ->
  nodupb (map fst (Frame.labelled k df)) = true ->
  exists c, Frame.labelled k df = [(k, c)] /\ In (k, c) (series df).
Proof.
  intros Hl Hn. pose proof (labelled_nonempty k df Hl) as Hne.
  assert (Hall : forall l c, In (l, c) (Frame.labelled k df) -> In (l, c) (series df) /\ l = k)
    by (intros l c; apply labelled_In).
  destruct (Frame.labelled k df) as [| [l1 c1] [| [l2 c2] rest]]; [congruence | |].
  - destruct (Hall l1 c1 (or_introl eq_refl)) as [Hin ->]. exists c1. auto.
  - destruct (Hall l1 c1 (or_introl eq_refl)) as [_ ->].
    destruct (Hall l2 c2 (or_intror (or_introl eq_refl))) as [_ ->].
    cbn in Hn. rewrite String.eqb_refl in Hn. discriminate.
Qed.

(** A selection of the three required columns that the bulk write can
    serialise consists of exactly one column for each, in that order. *)
Lemma getitem_required (df sel : DataFrame) :
  Frame.getitem_list REQUIRED df = inr sel ->
  nodupb (Frame.columns sel) = true ->
  exists c1 c2 c3,
    sel = mkFrame (nrows df) [("BATCH_ID", c1); ("ORDER_ID", c2); ("AMOUNT", c3)]
    /\ In ("BATCH_ID", c1) (series df)
    /\ In ("ORDER_ID", c2) (series df)
    /\ In ("AMOUNT", c3) (series df).
Proof.
  unfold Frame.getitem_list, REQUIRED. cbn [filter flat_map].
  destruct (Frame.has_label "BATCH_ID" df) eqn:Hb;
    destruct (Frame.has_label "ORDER_ID" df) eqn:Ho;
    destruct (Frame.has_label "AMOUNT" df) eqn:Ha;
    cbn [negb]; try discriminate.
  intros Heq Hn. injection Heq as <-.
  unfold Frame.columns in Hn. cbn [series] in Hn. rewrite !map_app in Hn.
  apply nodupb_app in Hn. destruct Hn as [Hn1 Hn].
  apply nodupb_app in Hn. destruct Hn as [Hn2 Hn].
  apply nodupb_app in Hn. destruct Hn as [Hn3 _].
  destruct (labelled_single _ _ Hb Hn1) as (c1 & E1 & I1).
  destruct (labelled_single _ _ Ho Hn2) as (c2 & E2 & I2).
  destruct (labelled_single _ _ Ha Hn3) as (c3 & E3 & I3).
  exists c1, c2, c3. rewrite E1, E2, E3. cbn [app]. auto.
Qed.

Lemma nth_repeat_lt (v : value) (m i : nat) :
  (i < m)%nat -> nth i (repeat v m) VNull = v.
Proof.
  revert i. induction m as [| m IH]; intros i Hi; [lia |].
  destruct i as [| i]; cbn; [reflexivity | apply IH; lia].
Qed.

Lemma rows_required (n : Z) (m : nat) (c2 c3 : list value) :
  Frame.rows (mkFrame m [("BATCH_ID", repeat (VInt n) m); ("ORDER_ID", c2); ("AMOUNT", c3)])
  = map (order_row n c2 c3) (seq 0 m).
Proof.
  unfold Frame.rows. cbn [nrows series]. apply map_ext_in. intros i Hi.
  apply in_seq in Hi. cbn [map fst snd]. unfold order_row.
  rewrite nth_repeat_lt by lia. reflexivity.
Qed.

(** What [ingest_batch] hands to the bulk write, in terms of the payload:
    the batch identifier, and the cells of a source column whose
    normalised name is ORDER_ID and of one whose normalised name is
    AMOUNT. *)
Lemma prepared_selection (n : Z) (df sel : DataFrame) :
  Frame.getitem_list REQUIRED (prepared n df) = inr sel ->
  nodupb (Frame.columns sel) = true ->
  exists c_o cells_o c_a cells_a,
    In (c_o, cells_o) (series df) /\ normalize c_o = "ORDER_ID"
    /\ In (c_a, cells_a) (series df) /\ normalize c_a = "AMOUNT"
    /\ Frame.columns sel = REQUIRED
    /\ Frame.rows sel = map (order_row n cells_o cells_a) (seq 0 (nrows df)).
Proof.
  intros Hg Hn.
  destruct (getitem_required _ _ Hg Hn) as (c1 & c2 & c3 & -> & I1 & I2 & I3).
  rewrite prepared_nrows. unfold prepared in I1, I2, I3.
  apply setitem_series_In in I1, I2, I3.
  destruct I1 as [[_ ->] | [Hne _]]; [| congruence].
  destruct I2 as [[Hx _] | [_ I2]]; [discriminate |].
  destruct I3 as [[Hx _] | [_ I3]]; [discriminate |].
  rewrite set_columns_series in I2, I3.
  apply in_map_iff in I2, I3.
  destruct I2 as ([c_o cells_o] & E2 & I2). destruct I3 as ([c_a cells_a] & E3 & I3).
  cbn [fst snd] in E2, E3. injection E2 as E2 <-. injection E3 as E3 <-.
  exists c_o, cells_o, c_a, cells_a.
  assert (Hr : nrows (Frame.set_columns
                        (map (fun col => Py.upper (Py.strip col)) (Frame.columns df)) df)
               = nrows df) by reflexivity.
  rewrite Hr. repeat split; try assumption.
  apply rows_required.
Qed.




(** *** The bulk write *)

Lemma write_pandas_cases (df : DataFrame) (w : World) :
  (exists e, write_pandas df w
             = mkRun (Raise e) (final (write_pandas df w)) []
        /\ ORDERS (store (final (write_pandas df w))) = ORDERS (store w)
        /\ source (final (write_pandas df w)) = source w)
  \/ (exists ttl t,
        tick (conn_ttl (store w)) = Some ttl
        /\ ORDERS (store w) = Some t
        /\ nodupb (Frame.columns df) = true
        /\ table_accepts df = true
        /\ write_pandas df w
           = mkRun (Ok tt) (with_ORDERS (t ++ Frame.rows df) (with_ttl ttl w)) []).
Proof.
  unfold write_pandas.
  destruct (tick (conn_ttl (store w))) as [ttl |] eqn:Et.
  2:{ left. eexists. simpl. repeat split. }
  destruct (ORDERS (store w)) as [t |] eqn:Eo.
  2:{ left. eexists. simpl. repeat split; congruence. }
  destruct (nodupb (Frame.columns df)) eqn:En; simpl.
  2:{ left. eexists. simpl. repeat split; congruence. }
  destruct (table_accepts df) eqn:Ea.
  - right. exists ttl, t. repeat split.
  - left. eexists. simpl. repeat split; congruence.
Qed.


(** *** The body of [ingest_batch] *)

Lemma requests_get_data (id : string) (w : World) :
  requests_get ("http://localhost:5000/api/batch_data/" ++ id) w
  = if reachable (source w)
    then mkRun (Ok (data_response w id)) w []
    else mkRun (Raise ConnectionError) w [].
Proof. unfold requests_get. destruct (reachable (source w)); reflexivity. Qed.

(** The body, step by step: the first step that fails decides the
    exception, and only the bulk write touches the world. *)
Lemma body_eq (id : string) (w : World) :
  ingest_batch_body id w
  = if reachable (source w) then
      if status_ok (data_response w id) then
        match read_csv (text (data_response w id)) with
        | inl e => mkRun (Raise e) w []
        | inr df =>
            match Py.int id with
            | None =>
                mkRun (Raise (ValueError ("invalid literal for int() with base 10: " ++ id)))
                      w []
            | Some n =>
                match Frame.getitem_list REQUIRED (prepared n df) with
                | inl e => mkRun (Raise e) w []
                | inr sel =>
                    mkRun (res (write_pandas sel w)) (final (write_pandas sel w))
                          (match res (write_pandas sel w) with
                           | Ok _ => [Loaded id (nrows df)]
                           | Raise _ => []
                           end)
                end
            end
        end
      else mkRun (Raise (HTTPError (status_code (data_response w id)))) w []
    else mkRun (Raise ConnectionError) w [].
Proof.
  unfold ingest_batch_body.
  destruct (reachable (source w)) eqn:Er.
  2:{ erewrite bind_raise by (rewrite requests_get_data, Er; reflexivity). reflexivity. }
  erewrite bind_pure by (rewrite requests_get_data, Er; reflexivity).
  destruct (status_ok (data_response w id)) eqn:Es.
  2:{ erewrite bind_raise by (rewrite raise_for_status_eq, Es; reflexivity). reflexivity. }
  erewrite bind_pure by (rewrite raise_for_status_eq, Es; reflexivity).
  destruct (read_csv (text (data_response w id))) as [e | df] eqn:Ec.
  { erewrite bind_raise by reflexivity. reflexivity. }
  erewrite bind_pure by reflexivity.
  destruct (Py.int id) as [n |] eqn:Ei.
  2:{ erewrite bind_raise by (unfold int_; rewrite Ei; reflexivity). reflexivity. }
  erewrite bind_pure by (unfold int_; rewrite Ei; reflexivity).
  fold (prepared n df).
  destruct (Frame.getitem_list REQUIRED (prepared n df)) as [e | sel] eqn:Eg.
  { erewrite bind_raise by reflexivity. reflexivity. }
  erewrite bind_pure by reflexivity.
  destruct (write_pandas_cases sel w)
    as [(e & Hw & _) | (ttl & t & _ & _ & _ & _ & Hw)].
  - erewrite bind_raise by exact Hw. rewrite Hw. reflexivity.
  - erewrite bind_ok by exact Hw. rewrite Hw.
    unfold print, Frame.len. cbn [res final out app].
    rewrite prepared_nrows. reflexivity.
Qed.

Lemma body_cases (id : string) (w : World) :
  (exists e, res (ingest_batch_body id w) = Raise e
        /\ out (ingest_batch_body id w) = []
        /\ ORDERS (store (final (ingest_batch_body id w))) = ORDERS (store w)
        /\ source (final (ingest_batch_body id w)) = source w)
  \/ (exists df n sel t ttl,
        body_ok id w df n sel t ttl
        /\ ingest_batch_body id w
           = mkRun (Ok tt) (with_ORDERS (t ++ Frame.rows sel) (with_ttl ttl w))
                   [Loaded id (nrows df)]).
Proof.
  rewrite body_eq.
  destruct (reachable (source w)) eqn:Er; [| left; eexists; repeat split].
  destruct (status_ok (data_response w id)) eqn:Es; [| left; eexists; repeat split].
  destruct (read_csv (text (data_response w id))) as [e | df] eqn:Ec;
    [left; eexists; repeat split |].
  destruct (Py.int id) as [n |] eqn:Ei; [| left; eexists; repeat split].
  destruct (Frame.getitem_list REQUIRED (prepared n df)) as [e | sel] eqn:Eg;
    [left; eexists; repeat split |].
  destruct (write_pandas_cases sel w)
    as [(e & Hw & Ho & Hs) | (ttl & t & Ht & Ho & Hn & Ha & Hw)].
  - left. exists e. rewrite Hw. cbn [res final out]. repeat split; assumption.
  - right. exists df, n, sel, t, ttl. split.
    + unfold body_ok. repeat split; assumption.
    + rewrite Hw. reflexivity.
Qed.


Lemma ingest_batch_eq (id : string) (w : World) :
  ingest_batch id w
  = let r := ingest_batch_body id w in
    match res r with
    | Ok _ => mkRun (Ok None) (final r) (out r)
    | Raise e => mkRun (Ok None) (final r) (out r ++ [ErrorLoading id e])
    end.
Proof.
  unfold ingest_batch, bind, try_except, print, ret.
  destruct (ingest_batch_body id w) as [r f o]. cbn.
  destruct r; cbn; rewrite ?app_nil_r; reflexivity.
Qed.

Lemma ingest_batch_res (id : string) (w : World) : res (ingest_batch id w) = Ok None.
Proof.
  rewrite ingest_batch_eq. simpl.
  destruct (res (ingest_batch_body id w)); reflexivity.
Qed.

Lemma ingest_batch_failed (id : string) (w : World) (e : Exn) :
  res (ingest_batch_body id w) = Raise e ->
  ingest_batch id w
  = mkRun (Ok None) (final (ingest_batch_body id w)) [ErrorLoading id e]
  /\ ORDERS (store (final (ingest_batch id w))) = ORDERS (store w)
  /\ source (final (ingest_batch id w)) = source w.
Proof.
  intros He. rewrite ingest_batch_eq. simpl. rewrite He.
  destruct (body_cases id w) as [(e' & Hr & Ho & Hs & Hsrc) | (df & n & sel & t & ttl & _ & Heq)].
  - rewrite Ho. simpl. repeat split; assumption.
  - rewrite Heq in He. discriminate.
Qed.

Lemma ingest_batch_loaded (id : string) (w : World) (k : nat) :
  In (Loaded id k) (out (ingest_batch id w)) ->
  exists df n sel t ttl,
    body_ok id w df n sel t ttl
    /\ k = nrows df
    /\ ingest_batch id w
       = mkRun (Ok None) (with_ORDERS (t ++ Frame.rows sel) (with_ttl ttl w))
               [Loaded id (nrows df)].
Proof.
  rewrite ingest_batch_eq. simpl.
  destruct (body_cases id w) as [(e' & Hr & Ho & Hs & Hsrc) | (df & n & sel & t & ttl & Hok & Heq)].
  - rewrite Hr, Ho. simpl. intros [H | []]. discriminate.
  - rewrite Heq. simpl. intros [H | []]. injection H as <-.
    exists df, n, sel, t, ttl. split; [exact Hok | split; reflexivity].
Qed.

Lemma ingest_batch_cases (id : string) (w : World) :
  (exists e, res (ingest_batch_body id w) = Raise e
        /\ ingest_batch id w
           = mkRun (Ok None) (final (ingest_batch_body id w)) [ErrorLoading id e]
        /\ ORDERS (store (final (ingest_batch id w))) = ORDERS (store w)
        /\ source (final (ingest_batch id w)) = source w)
  \/ (exists df n sel t ttl,
        body_ok id w df n sel t ttl
        /\ ingest_batch id w
           = mkRun (Ok None) (with_ORDERS (t ++ Frame.rows sel) (with_ttl ttl w))
                   [Loaded id (nrows df)]).
Proof.
  destruct (body_cases id w)
    as [(e & Hr & Ho & Hs & Hsrc) | (df & n & sel & t & ttl & Hok & Heq)].
  - left. exists e. split; [assumption |]. apply ingest_batch_failed. assumption.
  - right. exists df, n, sel, t, ttl. split; [assumption |].
    rewrite ingest_batch_eq, Heq. reflexivity.
Qed.

Lemma ingest_batch_source (id : string) (w : World) :
  source (final (ingest_batch id w)) = source w.
Proof.
  destruct (ingest_batch_cases id w)
    as [(e & _ & _ & _ & Hs) | (df & n & sel & t & ttl & _ & Heq)];
    [assumption | rewrite Heq; reflexivity].
Qed.

Lemma ingest_batch_no_decision (id : string) (w : World) :
  decisions (out (ingest_batch id w)) = []
  /\ ingested_ids (out (ingest_batch id w)) = [].
Proof.
  destruct (ingest_batch_cases id w)
    as [(e & _ & Heq & _) | (df & n & sel & t & ttl & _ & Heq)];
    rewrite Heq; split; reflexivity.
Qed.

(** *** One turn of the loop *)

Lemma loop_body_refused (loaded : list value) (id : string) (w : World) :
  Py.int id = None ->
  loop_body loaded id w
  = mkRun (Raise (ValueError ("invalid literal for int() with base 10: " ++ id))) w [].
Proof.
  intros Hi. unfold loop_body.
  erewrite bind_raise by (unfold int_; rewrite Hi; reflexivity). reflexivity.
Qed.

Lemma loop_body_skip (loaded : list value) (id : string) (n : Z) (w : World) :
  Py.int id = Some n -> py_in n loaded = true ->
  loop_body loaded id w = mkRun (Ok tt) w [Skipping id].
Proof.
  intros Hi Hin. unfold loop_body.
  erewrite bind_pure by (unfold int_; rewrite Hi; reflexivity).
  rewrite Hin. reflexivity.
Qed.

Lemma loop_body_ingest (loaded : list value) (id : string) (n : Z) (w : World) :
  Py.int id = Some n -> py_in n loaded = false ->
  loop_body loaded id w
  = mkRun (Ok tt) (final (ingest_batch id w)) (Ingesting id :: out (ingest_batch id w)).
Proof.
  intros Hi Hin. unfold loop_body.
  erewrite bind_pure by (unfold int_; rewrite Hi; reflexivity).
  rewrite Hin.
  erewrite bind_ok by reflexivity.
  pose proof (ingest_batch_res id w) as Hr.
  destruct (ingest_batch id w) as [r f o] eqn:Hib. cbn [res] in Hr. subst r.
  erewrite bind_ok by exact Hib.
  unfold ret. cbn [res final out app]. rewrite app_nil_r. reflexivity.
Qed.

Lemma loop_body_decision (loaded : list value) (id : string) (w : World) :
  int_valued id ->
  exists w' o,
    loop_body loaded id w = mkRun (Ok tt) w' (decision loaded id :: o)
    /\ decisions o = [].
Proof.
  intros Hv. unfold int_valued in Hv. unfold decision, is_loaded.
  destruct (Py.int id) as [n |] eqn:Hi; [| congruence].
  destruct (py_in n loaded) eqn:Hin.
  - exists w, []. split; [eapply loop_body_skip; eassumption | reflexivity].
  - exists (final (ingest_batch id w)), (out (ingest_batch id w)).
    split; [eapply loop_body_ingest; eassumption | apply ingest_batch_no_decision].
Qed.

(** *** The loop *)

Lemma main_loop_cons (loaded : list value) (id : string) (rest : list string) (w : World) :
  main_loop loaded (id :: rest) w
  = bind (loop_body loaded id) (fun _ => main_loop loaded rest) w.
Proof. reflexivity. Qed.

Lemma main_loop_step (loaded : list value) (id : string) (rest : list string)
      (w w' : World) (o : list Event) :
  loop_body loaded id w = mkRun (Ok tt) w' o ->
  main_loop loaded (id :: rest) w
  = mkRun (res (main_loop loaded rest w')) (final (main_loop loaded rest w'))
          (o ++ out (main_loop loaded rest w')).
Proof.
  intros H. rewrite main_loop_cons.
  exact (bind_ok (loop_body loaded id) (fun _ => main_loop loaded rest) _ _ _ _ H).
Qed.




(** The run stops at the first identifier [int] refuses, having treated
    exactly the identifiers before it. *)
Lemma main_loop_int_prefix (loaded : list value) (ids : list string) (w : World) :
  main_loop loaded ids w
  = mkRun (match find (fun id => negb (int_valuedb id)) ids with
           | Some bad =>
               Raise (ValueError ("invalid literal for int() with base 10: " ++ bad))
           | None => Ok tt
           end)
          (final (main_loop loaded (int_prefix ids) w))
          (out (main_loop loaded (int_prefix ids) w)).
Proof.
  revert w. induction ids as [| id rest IH]; intros w; [reflexivity |].
  cbn [find int_prefix].
  destruct (int_valuedb id) eqn:Hb; cbn [negb].
  - apply int_valuedb_true in Hb.
    destruct (loop_body_decision loaded id w Hb) as (w' & o & Heq & _).
    rewrite !(main_loop_step _ _ _ _ _ _ Heq). rewrite (IH w'). reflexivity.
  - assert (Hi : Py.int id = None)
      by (unfold int_valuedb in Hb; destruct (Py.int id); congruence).
    rewrite main_loop_cons.
    erewrite bind_raise by (apply loop_body_refused; assumption). reflexivity.
Qed.


(** *** The two reads before the loop *)

Lemma fetched_rows (l : list value) :
  py_set (map (fun row => nth 0 row VNull) (map (fun v => [v]) (nodup value_eq_dec l)))
  = nodup value_eq_dec l.
Proof.
  rewrite map_map. cbn [nth]. rewrite map_id. unfold py_set.
  apply nodup_fixed_point, NoDup_nodup.
Qed.

Lemma get_loaded_batches_cases (w : World) :
  (exists e, get_loaded_batches w = mkRun (Raise e) (final (get_loaded_batches w)) []
        /\ ORDERS (store (final (get_loaded_batches w))) = ORDERS (store w)
        /\ source (final (get_loaded_batches w)) = source w)
  \/ (exists ttl t,
        tick (conn_ttl (store w)) = Some ttl
        /\ ORDERS (store w) = Some t
        /\ get_loaded_batches w = mkRun (Ok (batch_ids_of t)) (with_ttl ttl w) []).
Proof.
  unfold get_loaded_batches.
  destruct (tick (conn_ttl (store w))) as [ttl |] eqn:Et.
  - destruct (ORDERS (store w)) as [t |] eqn:Eo.
    + right. exists ttl, t. repeat split.
      erewrite bind_ok
        by (unfold select_distinct_batch_id; rewrite Et, Eo; reflexivity).
      unfold ret. cbn [res final out app]. rewrite fetched_rows. reflexivity.
    + left. eexists.
      erewrite bind_raise
        by (unfold select_distinct_batch_id; rewrite Et, Eo; reflexivity).
      cbn. repeat split; congruence.
  - left. eexists.
    erewrite bind_raise
      by (unfold select_distinct_batch_id; rewrite Et; reflexivity).
    cbn. repeat split.
Qed.


Lemma get_loaded_batches_no_table (w : World) (ttl : option nat) :
  tick (conn_ttl (store w)) = Some ttl -> ORDERS (store w) = None ->
  res (get_loaded_batches w) = Raise (ProgrammingError "table ORDERS does not exist").
Proof.
  intros Ht Ho. unfold get_loaded_batches.
  erewrite bind_raise
    by (unfold select_distinct_batch_id; rewrite Ht, Ho; reflexivity).
  reflexivity.
Qed.

Lemma requests_get_list (w : World) :
  requests_get "http://localhost:5000/api/batches/batch_list.csv" w
  = if reachable (source w)
    then mkRun (Ok (list_response w)) w []
    else mkRun (Raise ConnectionError) w [].
Proof. unfold requests_get. destruct (reachable (source w)); reflexivity. Qed.

(** Discovery reads the world and leaves it as it is; it fails on an
    unreachable server, on a non-success status, on a text the parser
    refuses and on a frame without a single [batch_id] column. *)
Lemma get_batch_ids_eq (w : World) :
  get_batch_ids w
  = mkRun (if reachable (source w) then
             if status_ok (list_response w) then
               match read_csv (text (list_response w)) with
               | inl e => Raise e
               | inr df =>
                   match Frame.getitem_astype_str_tolist "batch_id" df with
                   | inl e => Raise e
                   | inr ids => Ok ids
                   end
               end
             else Raise (HTTPError (status_code (list_response w)))
           else Raise ConnectionError)
          w [].
Proof.
  unfold get_batch_ids.
  destruct (reachable (source w)) eqn:Er.
  2:{ erewrite bind_raise by (rewrite requests_get_list, Er; reflexivity). reflexivity. }
  erewrite bind_pure by (rewrite requests_get_list, Er; reflexivity).
  destruct (status_ok (list_response w)) eqn:Es.
  2:{ erewrite bind_raise by (rewrite raise_for_status_eq, Es; reflexivity). reflexivity. }
  erewrite bind_pure by (rewrite raise_for_status_eq, Es; reflexivity).
  destruct (read_csv (text (list_response w))) as [e | df].
  { erewrite bind_raise by reflexivity. reflexivity. }
  erewrite bind_pure by reflexivity.
  destruct (Frame.getitem_astype_str_tolist "batch_id" df); reflexivity.
Qed.

Lemma get_batch_ids_run (w : World) :
  get_batch_ids w = mkRun (res (get_batch_ids w)) w [].
Proof. rewrite get_batch_ids_eq. reflexivity. Qed.

(** *** The main block *)

Lemma main_read_fails (w : World) (e : Exn) :
  res (get_loaded_batches w) = Raise e ->
  main w = mkRun (Raise e) (final (get_loaded_batches w)) []
  /\ ORDERS (store (final (get_loaded_batches w))) = ORDERS (store w).
Proof.
  intros Hr. unfold main.
  destruct (get_loaded_batches_cases w) as [(e' & Heq & Ho & _) | (ttl & t & _ & _ & Heq)].
  - rewrite Heq in Hr. cbn [res] in Hr. injection Hr as ->.
    split; [| assumption]. erewrite bind_raise by exact Heq. reflexivity.
  - rewrite Heq in Hr. discriminate.
Qed.

Lemma get_loaded_batches_ok (w : World) (loaded : list value) :
  res (get_loaded_batches w) = Ok loaded ->
  exists ttl t,
    tick (conn_ttl (store w)) = Some ttl
    /\ ORDERS (store w) = Some t
    /\ loaded = batch_ids_of t
    /\ get_loaded_batches w = mkRun (Ok loaded) (with_ttl ttl w) [].
Proof.
  intros Hr.
  destruct (get_loaded_batches_cases w) as [(e' & Heq & _) | (ttl & t & Ht & Ho & Heq)].
  - rewrite Heq in Hr. discriminate.
  - rewrite Heq in Hr. cbn [res] in Hr. injection Hr as <-.
    exists ttl, t. auto.
Qed.

Lemma main_discovery_fails (w : World) (loaded : list value) (e : Exn) :
  res (get_loaded_batches w) = Ok loaded ->
  res (get_batch_ids (final (get_loaded_batches w))) = Raise e ->
  main w = mkRun (Raise e) (final (get_loaded_batches w)) [AlreadyLoaded loaded]
  /\ ORDERS (store (final (get_loaded_batches w))) = ORDERS (store w).
Proof.
  intros Hl Hd. destruct (get_loaded_batches_ok w loaded Hl) as (ttl & t & _ & _ & _ & Heq).
  rewrite Heq in *. cbn [final] in *. split; [| reflexivity].
  unfold main. erewrite bind_ok by exact Heq.
  erewrite bind_ok by reflexivity.
  erewrite bind_raise by (rewrite get_batch_ids_run, Hd; reflexivity).
  reflexivity.
Qed.

Lemma main_reads (w : World) (loaded : list value) (ids : list string) :
  res (get_loaded_batches w) = Ok loaded ->
  res (get_batch_ids (final (get_loaded_batches w))) = Ok ids ->
  main w
  = mkRun (res (main_loop loaded ids (final (get_loaded_batches w))))
          (final (main_loop loaded ids (final (get_loaded_batches w))))
          (AlreadyLoaded loaded
           :: out (main_loop loaded ids (final (get_loaded_batches w)))).
Proof.
  intros Hl Hd. destruct (get_loaded_batches_ok w loaded Hl) as (ttl & t & _ & _ & _ & Heq).
  rewrite Heq in *. cbn [final] in *.
  unfold main. erewrite bind_ok by exact Heq.
  erewrite bind_ok by reflexivity.
  erewrite bind_pure by (rewrite get_batch_ids_run, Hd; reflexivity).
  reflexivity.
Qed.

(** *** A batch without a data file, and a lost connection *)





(** *** A second run *)







(** ** The properties of the ingestion loop *)





(** C7 (errors before the loop are fatal).  Any exception raised while the
    loaded set is read, and any exception raised while the catalog is
    discovered, leaves the run uncaught: the run ends with that very
    exception, ORDERS is as it was, and no skip-or-ingest decision was taken
    for any batch. *)
Theorem pre_loop_errors_fatal (w : World) (e : Exn) :
  res (get_loaded_batches w) = Raise e
  \/ (exists loaded, res (get_loaded_batches w) = Ok loaded
                /\ res (get_batch_ids (final (get_loaded_batches w))) = Raise e) ->
  res (main w) = Raise e
  /\ ORDERS (store (final (main w))) = ORDERS (store w)
  /\ decisions (out (main w)) = []
  /\ ingested_ids (out (main w)) = [].
Proof.
  intros [Hr | (loaded & Hl & Hd)].
  - destruct (main_read_fails w e Hr) as [Heq Ho]. rewrite Heq. cbn. auto.
  - destruct (main_discovery_fails w loaded e Hl Hd) as [Heq Ho]. rewrite Heq. cbn. auto.
Qed.


(** C4, as the code has it (row count).  [ingest_batch] returns [None];
    the row count is printed.  When it prints that a batch is loaded with
    [k] rows, that is all it prints, the payload parsed into a frame of
    exactly [k] data rows, and exactly [k] rows were appended to ORDERS. *)
Theorem row_count_logged (id : string) (w : World) (k : nat) :
  In (Loaded id k) (out (ingest_batch id w)) ->
  res (ingest_batch id w) = Ok None
  /\ out (ingest_batch id w) = [Loaded id k]
  /\ exists df t block,
       read_csv (text (data_response w id)) = inr df
       /\ k = Frame.len df
       /\ ORDERS (store w) = Some t
       /\ ORDERS (store (final (ingest_batch id w))) = Some (t ++ block)%list
       /\ List.length block = k.
Proof.
  intros Hin.
  destruct (ingest_batch_loaded id w k Hin) as (df & n & sel & t & ttl & Hok & -> & Heq).
  destruct Hok as (_ & _ & Hc & _ & Hg & Hn & _ & _ & Ho).
  destruct (prepared_selection n df sel Hg Hn) as (co & cso & ca & csa & _ & _ & _ & _ & _ & Hrows).
  rewrite Heq. cbn [res final out]. repeat split.
  exists df, t, (Frame.rows sel). repeat split; try assumption.
  rewrite Hrows, length_map, length_seq. reflexivity.
Qed.




(** ** Further properties of the loader and of Batch Source *)

(** *** What a run appends *)

Lemma logged_rows_app (a b : list Event) :
  logged_rows (a ++ b) = (logged_rows a + logged_rows b)%nat.
Proof.
  induction a as [| ev a IH]; [reflexivity |].
  destruct ev; cbn [app logged_rows]; rewrite IH; lia.
Qed.


(** The rows a call of [ingest_batch] appends: none, or one per data row,
    each with the three required cells and the integer of the identifier. *)
Lemma ingest_batch_appends (id : string) (w : World) (t : list Row) :
  ORDERS (store w) = Some t ->
  exists block,
    ORDERS (store (final (ingest_batch id w))) = Some (t ++ block)%list
    /\ List.length block = logged_rows (out (ingest_batch id w))
    /\ Forall (fun row => map fst row = REQUIRED
                          /\ exists n, Py.int id = Some n /\ batch_id_cell row = VInt n)
              block.
Proof.
  intros Ho.
  destruct (ingest_batch_cases id w)
    as [(e & _ & Heq & Hsame & _) | (df & n & sel & t0 & ttl & Hok & Heq)].
  - exists []. rewrite app_nil_r, Hsame, Heq. cbn. auto.
  - destruct Hok as (_ & _ & _ & Hi & Hg & Hn & _ & _ & Ho0).
    assert (t0 = t) by congruence. subst t0.
    destruct (prepared_selection n df sel Hg Hn)
      as (co & cso & ca & csa & _ & _ & _ & _ & _ & Hrows).
    exists (Frame.rows sel). rewrite Heq. cbn [final out store ORDERS with_ORDERS logged_rows].
    split; [reflexivity |]. rewrite Hrows. split.
    + rewrite length_map, length_seq. lia.
    + apply Forall_forall. intros row Hin. apply in_map_iff in Hin.
      destruct Hin as (i & <- & _). split; [reflexivity |].
      exists n. split; [assumption | reflexivity].
Qed.

Lemma main_loop_appends (loaded : list value) (ids : list string) :
  Forall int_valued ids ->
  forall (w : World) (t : list Row),
    ORDERS (store w) = Some t ->
    exists t',
      ORDERS (store (final (main_loop loaded ids w))) = Some (t ++ t')%list
      /\ source (final (main_loop loaded ids w)) = source w
      /\ List.length t' = logged_rows (out (main_loop loaded ids w))
      /\ Forall (fun row => map fst row = REQUIRED
                            /\ exists n, batch_id_cell row = VInt n /\ ~ In (VInt n) loaded)
                t'.
Proof.
  induction 1 as [| id rest Hid _ IH]; intros w t Ho.
  - exists []. rewrite app_nil_r. cbn. auto.
  - destruct (is_loaded_cases loaded id Hid) as (n & Hi & [[Hld Hin] | [Hld Hin]]).
    + rewrite (main_loop_step _ _ _ _ _ _ (loop_body_skip _ _ _ _ Hi Hin)).
      cbn [final out app logged_rows]. apply IH. assumption.
    + rewrite (main_loop_step _ _ _ _ _ _ (loop_body_ingest _ _ _ _ Hi Hin)).
      cbn [final out].
      destruct (ingest_batch_appends id w t Ho) as (block & Hb & Hlen & Hall).
      destruct (IH (final (ingest_batch id w)) _ Hb) as (t' & Ho' & Hs' & Hlen' & Hall').
      exists (block ++ t')%list. rewrite app_assoc.
      split; [assumption |].
      split; [rewrite Hs'; apply ingest_batch_source |].
      split.
      * rewrite length_app, Hlen, Hlen'.
        change (Ingesting id :: out (ingest_batch id w))
          with ([Ingesting id] ++ out (ingest_batch id w))%list.
        rewrite !logged_rows_app. reflexivity.
      * apply Forall_app. split; [| assumption].
        eapply Forall_impl; [| exact Hall].
        intros row (Hk & m & Hm & Hc). split; [assumption |].
        assert (m = n) by congruence. subst m.
        exists n. split; [assumption |]. rewrite <- py_in_In. congruence.
Qed.

(** The same for a whole run, whatever its outcome. *)
Lemma main_appends (w : World) (t : list Row) :
  ORDERS (store w) = Some t ->
  exists t',
    ORDERS (store (final (main w))) = Some (t ++ t')%list
    /\ source (final (main w)) = source w
    /\ List.length t' = logged_rows (out (main w))
    /\ Forall (fun row => map fst row = REQUIRED
                          /\ exists n, batch_id_cell row = VInt n
                                  /\ ~ In (VInt n) (batch_ids_of t))
              t'.
Proof.
  intros Ho.
  destruct (res (get_loaded_batches w)) as [loaded | e] eqn:Hl.
  2:{ destruct (main_read_fails w e Hl) as [Heq Hsame].
      destruct (get_loaded_batches_cases w) as [(e' & _ & _ & Hs) | (ttl & t0 & _ & _ & Hrun)];
        [| rewrite Hrun in Hl; discriminate].
      exists []. rewrite app_nil_r, Heq. cbn [final out logged_rows].
      rewrite Hsame. auto. }
  destruct (get_loaded_batches_ok w loaded Hl) as (ttl & t0 & _ & Ho0 & Hset & Hrun).
  assert (t0 = t) by congruence. subst t0.
  destruct (res (get_batch_ids (final (get_loaded_batches w)))) as [ids | e] eqn:Hd.
  2:{ destruct (main_discovery_fails w loaded e Hl Hd) as [Heq Hsame].
      exists []. rewrite app_nil_r, Heq. cbn [final out logged_rows].
      rewrite Hsame, Hrun. cbn. auto. }
  rewrite (main_reads w loaded ids Hl Hd). cbn [final out logged_rows].
  rewrite main_loop_int_prefix. cbn [final out]. rewrite Hrun. cbn [final].
  destruct (main_loop_appends loaded (int_prefix ids) (int_prefix_valued ids)
              (with_ttl ttl w) t Ho) as (t' & H1 & H2 & H3 & H4).
  exists t'. subst loaded. auto.
Qed.

(** X4 (append-only).  Whatever a run does and however it ends, the rows
    ORDERS held before it are still there, in place, when it ends: the run
    only adds rows after them; and Batch Source is as it was. *)
Theorem run_is_append_only (w : World) (t : list Row) :
  ORDERS (store w) = Some t ->
  exists t',
    ORDERS (store (final (main w))) = Some (t ++ t')%list
    /\ source (final (main w)) = source w.
Proof.
  intros Ho. destruct (main_appends w t Ho) as (t' & H1 & H2 & _).
  exists t'. auto.
Qed.

(** X5 (the log accounts for the rows).  The number of rows a run adds to
    ORDERS is the sum of the row counts it printed in its "Loaded batch"
    lines. *)
Theorem run_rows_are_logged (w : World) (t : list Row) :
  ORDERS (store w) = Some t ->
  exists t',
    ORDERS (store (final (main w))) = Some (t ++ t')%list
    /\ List.length t' = logged_rows (out (main w)).
Proof.
  intros Ho. destruct (main_appends w t Ho) as (t' & H1 & _ & H3 & _).
  exists t'. auto.
Qed.

(** X6 (no row for a batch already present).  Every row a run adds has
    exactly the cells BATCH_ID, ORDER_ID, AMOUNT in that order, and its
    BATCH_ID is an integer that no row of ORDERS carried before the run. *)
Theorem run_adds_new_batches_only (w : World) (t : list Row) :
  ORDERS (store w) = Some t ->
  exists t',
    ORDERS (store (final (main w))) = Some (t ++ t')%list
    /\ Forall (fun row => map fst row = REQUIRED
                          /\ exists n, batch_id_cell row = VInt n
                                  /\ forall old, In old t -> batch_id_cell old <> VInt n)
              t'.
Proof.
  intros Ho. destruct (main_appends w t Ho) as (t' & H1 & _ & _ & H4).
  exists t'. split; [assumption |].
  eapply Forall_impl; [| exact H4].
  intros row (Hk & n & Hc & Hnew). split; [assumption |].
  exists n. split; [assumption |].
  intros old Hin Heq. apply Hnew. apply batch_ids_of_In. exists old. auto.
Qed.



(** *** A written batch and the loaded set *)


(** X9 (an empty batch leaves no trace).  When [ingest_batch] prints that
    it loaded a batch with 0 rows, ORDERS is exactly as before, so a read of
    the loaded set returns what it would have returned before: the batch is
    not recorded as loaded. *)
Theorem empty_batch_leaves_no_trace (id : string) (w : World) (loaded loaded' : list value) :
  In (Loaded id O) (out (ingest_batch id w)) ->
  res (get_loaded_batches w) = Ok loaded ->
  res (get_loaded_batches (final (ingest_batch id w))) = Ok loaded' ->
  ORDERS (store (final (ingest_batch id w))) = ORDERS (store w)
  /\ loaded' = loaded.
Proof.
  intros Hin Hl Hl'.
  destruct (ingest_batch_loaded id w O Hin) as (df & n & sel & t & ttl & Hok & Hz & Heq).
  destruct Hok as (_ & _ & _ & _ & Hg & Hn & _ & _ & Ho).
  destruct (prepared_selection n df sel Hg Hn)
    as (co & cso & ca & csa & _ & _ & _ & _ & _ & Hrows).
  rewrite <- Hz in Hrows. cbn in Hrows.
  assert (Hsame : ORDERS (store (final (ingest_batch id w))) = ORDERS (store w)).
  { rewrite Heq. cbn. rewrite Hrows, app_nil_r. symmetry. assumption. }
  split; [assumption |].
  destruct (get_loaded_batches_ok _ loaded Hl) as (? & t1 & _ & Ho1 & -> & _).
  destruct (get_loaded_batches_ok _ loaded' Hl') as (? & t2 & _ & Ho2 & -> & _).
  congruence.
Qed.


(** *** The two reads *)

(** X1 (the loaded set).  A successful [get_loaded_batches] returns, without
    repetition, exactly the BATCH_ID values that occur in the rows of
    ORDERS; it prints nothing and changes neither ORDERS nor Batch Source. *)
Theorem loaded_set_is_the_distinct_values (w : World) (loaded : list value) :
  res (get_loaded_batches w) = Ok loaded ->
  NoDup loaded
  /\ (exists t, ORDERS (store w) = Some t
           /\ forall v, In v loaded <-> exists row, In row t /\ batch_id_cell row = v)
  /\ ORDERS (store (final (get_loaded_batches w))) = ORDERS (store w)
  /\ source (final (get_loaded_batches w)) = source w
  /\ out (get_loaded_batches w) = [].
Proof.
  intros Hl. destruct (get_loaded_batches_ok w loaded Hl) as (ttl & t & _ & Ho & -> & Heq).
  split; [apply NoDup_nodup |].
  split; [exists t; split; [assumption | intros v; apply batch_ids_of_In] |].
  rewrite Heq. cbn. auto.
Qed.

Lemma labelled_absent (l : string) (df : DataFrame) :
  ~ In l (Frame.columns df) -> Frame.labelled l df = [].
Proof.
  intros Hn. destruct (Frame.labelled l df) as [| [k c] rest] eqn:E; [reflexivity |].
  exfalso. apply Hn.
  assert (Hin : In (k, c) (Frame.labelled l df)) by (rewrite E; left; reflexivity).
  apply labelled_In in Hin. destruct Hin as [Hin ->].
  unfold Frame.columns. apply in_map_iff. exists (l, c). auto.
Qed.

(** X2 (an integer catalog).  When the list file parses into a frame whose
    one batch_id column holds integers, discovery returns their decimal
    texts in source order, every one of them an integer literal that [int]
    reads back as the same integer. *)
Theorem integer_catalog_is_discovered (w : World) (df : DataFrame) (zs : list Z) :
  reachable (source w) = true ->
  status_ok (list_response w) = true ->
  read_csv (text (list_response w)) = inr df ->
  Frame.labelled "batch_id" df = [("batch_id", map VInt zs)] ->
  res (get_batch_ids w) = Ok (map Py.str_of_int zs)
  /\ Forall int_valued (map Py.str_of_int zs)
  /\ map Py.int (map Py.str_of_int zs) = map Some zs.
Proof.
  intros Hr Hs Hc Hcol. split; [| split].
  - rewrite get_batch_ids_eq. cbn [res]. rewrite Hr, Hs, Hc.
    unfold Frame.getitem_astype_str_tolist. rewrite Hcol. cbn [snd].
    rewrite map_map. reflexivity.
  - apply Forall_forall. intros s Hin. apply in_map_iff in Hin.
    destruct Hin as (z & <- & _). unfold int_valued. rewrite int_str_of_int. discriminate.
  - rewrite map_map. apply map_ext. intros z. apply int_str_of_int.
Qed.

(** X11 (the catalog header is taken literally).  Discovery looks the
    column up under the exact label batch_id: a list file whose header is
    spelled otherwise, be it only in case or surrounding blanks, makes
    discovery fail with a [KeyError], unlike the headers of batch payloads,
    which are normalised. *)
Theorem catalog_header_is_literal (w : World) (df : DataFrame) :
  reachable (source w) = true ->
  status_ok (list_response w) = true ->
  read_csv (text (list_response w)) = inr df ->
  ~ In "batch_id" (Frame.columns df) ->
  res (get_batch_ids w) = Raise (KeyError ["batch_id"]).
Proof.
  intros Hr Hs Hc Hn. rewrite get_batch_ids_eq. cbn [res]. rewrite Hr, Hs, Hc.
  unfold Frame.getitem_astype_str_tolist. rewrite (labelled_absent _ _ Hn). reflexivity.
Qed.

(** *** Between the loader and the server *)


(** *** Column names *)

(** X10 (normalised names are canonical).  [col.strip().upper()] yields a
    name that stripping and upper-casing leave as it is, and it does not
    tell apart two names that differ only in case or in surrounding
    whitespace. *)
Theorem normalize_is_canonical (s : string) :
  Py.strip (normalize s) = normalize s
  /\ Py.upper (normalize s) = normalize s
  /\ normalize (normalize s) = normalize s
  /\ normalize (Py.upper s) = normalize s
  /\ normalize (Py.strip s) = normalize s.
Proof.
  unfold normalize.
  assert (H1 : Py.strip (Py.upper (Py.strip s)) = Py.upper (Py.strip s))
    by (rewrite strip_upper, strip_idem; reflexivity).
  repeat split.
  - exact H1.
  - apply upper_idem.
  - rewrite H1. apply upper_idem.
  - rewrite strip_upper. apply upper_idem.
  - rewrite strip_idem. reflexivity.
Qed.

End Loader.

(** ** Worked examples *)

Module Examples.

Import Sample.


Ltac by_computation := vm_compute; reflexivity.





(** C7, on a Batch Source without its list file: discovery fails on
    status 500 and the run ends with that error before any decision. *)
Lemma pre_loop_errors_fatal_witness :
  res (get_batch_ids read_csv (final (get_loaded_batches world_no_list)))
  = Raise (HTTPError 500)
  /\ res (main read_csv accept_all world_no_list) = Raise (HTTPError 500)
  /\ ingested_ids (out (main read_csv accept_all world_no_list)) = [].
Proof.
  assert (H1 : res (get_loaded_batches world_no_list) = Ok []) by by_computation.
  assert (H2 : res (get_batch_ids read_csv (final (get_loaded_batches world_no_list)))
               = Raise (HTTPError 500)) by by_computation.
  destruct (pre_loop_errors_fatal read_csv accept_all world_no_list (HTTPError 500)
              (or_intror (ex_intro _ [] (conj H1 H2)))) as (Hres & _ & _ & Hids).
  split; [exact H2 |]. split; assumption.
Defined.


(** C4 as stated fails: batch 1 is loaded with its 2 rows, and what
    [ingest_batch] returns is [None], not the count. *)
Lemma row_count_not_returned :
  ~ (forall id w k,
        In (Loaded id k) (out (ingest_batch read_csv accept_all id w)) ->
        res (ingest_batch read_csv accept_all id w) = Ok (Some k)).
Proof.
  intros H. specialize (H "1" world_123 2%nat).
  assert (Hin : In (Loaded "1" 2) (out (ingest_batch read_csv accept_all "1" world_123)))
    by (vm_compute; left; reflexivity).
  specialize (H Hin). vm_compute in H. discriminate H.
Qed.

(** C4 as the code has it, on batch 1: two data rows, two rows appended,
    the count printed, [None] returned. *)
Lemma row_count_logged_witness :
  In (Loaded "1" 2) (out (ingest_batch read_csv accept_all "1" world_123))
  /\ res (ingest_batch read_csv accept_all "1" world_123) = Ok None
  /\ out (ingest_batch read_csv accept_all "1" world_123) = [Loaded "1" 2].
Proof.
  assert (Hin : In (Loaded "1" 2) (out (ingest_batch read_csv accept_all "1" world_123)))
    by (vm_compute; left; reflexivity).
  destruct (row_count_logged read_csv accept_all "1" world_123 2%nat Hin) as (Hr & Ho & _).
  split; [exact Hin |]. split; assumption.
Defined.






(** *** Further properties *)

(** X1, on a table that holds batches 10 and 11. *)
Lemma loaded_set_is_the_distinct_values_witness :
  res (get_loaded_batches world_skip) = Ok [VInt 10; VInt 11]
  /\ NoDup [VInt 10; VInt 11]
  /\ ORDERS (store (final (get_loaded_batches world_skip))) = ORDERS (store world_skip).
Proof.
  assert (H : res (get_loaded_batches world_skip) = Ok [VInt 10; VInt 11])
    by by_computation.
  destruct (loaded_set_is_the_distinct_values world_skip _ H) as (Hn & _ & Ho & _).
  split; [exact H |]. split; assumption.
Defined.

(** X2, on the catalog 10, 11, 12. *)
Lemma integer_catalog_is_discovered_witness :
  Frame.labelled "batch_id"
    (mkFrame 3 [("batch_id", map VInt [10; 11; 12])])
  = [("batch_id", map VInt [10; 11; 12])]
  /\ res (get_batch_ids read_csv world_skip) = Ok ["10"; "11"; "12"]
  /\ map Py.int ["10"; "11"; "12"] = [Some 10; Some 11; Some 12].
Proof.
  assert (H1 : reachable (source world_skip) = true) by reflexivity.
  assert (H2 : status_ok (list_response world_skip) = true) by by_computation.
  assert (H3 : read_csv (text (list_response world_skip))
               = inr (mkFrame 3 [("batch_id", map VInt [10; 11; 12])]))
    by by_computation.
  assert (H4 : Frame.labelled "batch_id" (mkFrame 3 [("batch_id", map VInt [10; 11; 12])])
               = [("batch_id", map VInt [10; 11; 12])]) by by_computation.
  destruct (integer_catalog_is_discovered read_csv world_skip _ [10; 11; 12] H1 H2 H3 H4)
    as (Hids & _ & Hint).
  split; [exact H4 |]. split; [exact Hids | exact Hint].
Defined.


(** X4, on a run that adds batch 12 to a table holding batches 10 and 11. *)
Lemma run_is_append_only_witness :
  ORDERS (store world_skip)
  = Some [ order_row 10 [VInt 1000] [VInt 1] 0; order_row 11 [VInt 1100] [VInt 2] 0 ]
  /\ exists t',
       ORDERS (store (final (main read_csv accept_all world_skip)))
       = Some ([ order_row 10 [VInt 1000] [VInt 1] 0;
                 order_row 11 [VInt 1100] [VInt 2] 0 ] ++ t')%list.
Proof.
  assert (H : ORDERS (store world_skip)
              = Some [ order_row 10 [VInt 1000] [VInt 1] 0;
                       order_row 11 [VInt 1100] [VInt 2] 0 ]) by reflexivity.
  destruct (run_is_append_only read_csv accept_all world_skip _ H) as (t' & Ho & _).
  split; [exact H |]. exists t'. exact Ho.
Defined.

(** X5, on the catalog 1, 2, 3: two rows and one row are printed, three
    rows are added. *)
Lemma run_rows_are_logged_witness :
  ORDERS (store world_123) = Some []
  /\ logged_rows (out (main read_csv accept_all world_123)) = 3%nat
  /\ exists t',
       ORDERS (store (final (main read_csv accept_all world_123))) = Some t'
       /\ List.length t' = 3%nat.
Proof.
  assert (H : ORDERS (store world_123) = Some []) by reflexivity.
  destruct (run_rows_are_logged read_csv accept_all world_123 _ H) as (t' & Ho & Hlen).
  split; [exact H |]. split; [by_computation |].
  exists t'. split; [exact Ho |]. rewrite Hlen. by_computation.
Defined.

(** X6, on the same run as X4. *)
Lemma run_adds_new_batches_only_witness :
  ORDERS (store world_skip)
  = Some [ order_row 10 [VInt 1000] [VInt 1] 0; order_row 11 [VInt 1100] [VInt 2] 0 ]
  /\ ORDERS (store (final (main read_csv accept_all world_skip)))
     = Some [ order_row 10 [VInt 1000] [VInt 1] 0;
              order_row 11 [VInt 1100] [VInt 2] 0;
              order_row 12 [VInt 1200] [VInt 4] 0 ].
Proof.
  assert (H : ORDERS (store world_skip)
              = Some [ order_row 10 [VInt 1000] [VInt 1] 0;
                       order_row 11 [VInt 1100] [VInt 2] 0 ]) by reflexivity.
  destruct (run_adds_new_batches_only read_csv accept_all world_skip _ H) as (t' & Ho & _).
  split; [exact H | by_computation].
Defined.


(** X9, on batch 9, whose data file holds a header only. *)
Lemma empty_batch_leaves_no_trace_witness :
  In (Loaded "9" 0) (out (ingest_batch read_csv accept_all "9" world_empty_batch))
  /\ ORDERS (store (final (ingest_batch read_csv accept_all "9" world_empty_batch)))
     = Some [].
Proof.
  assert (H1 : In (Loaded "9" 0)
                  (out (ingest_batch read_csv accept_all "9" world_empty_batch)))
    by (vm_compute; left; reflexivity).
  assert (H2 : res (get_loaded_batches world_empty_batch) = Ok []) by by_computation.
  assert (H3 : res (get_loaded_batches
                      (final (ingest_batch read_csv accept_all "9" world_empty_batch)))
               = Ok []) by by_computation.
  destruct (empty_batch_leaves_no_trace read_csv accept_all "9" world_empty_batch _ _
              H1 H2 H3) as (Ho & _).
  split; [exact H1 |]. rewrite Ho. reflexivity.
Defined.

(** X11, on a list file whose header is spelled Batch_ID. *)
Lemma catalog_header_is_literal_witness :
  normalize "Batch_ID" = "BATCH_ID"
  /\ res (get_batch_ids read_csv world_catalog_case) = Raise (KeyError ["batch_id"]).
Proof.
  assert (H1 : reachable (source world_catalog_case) = true) by reflexivity.
  assert (H2 : status_ok (list_response world_catalog_case) = true) by by_computation.
  assert (H3 : read_csv (text (list_response world_catalog_case))
               = inr (mkFrame 1 [("Batch_ID", [VInt 1])])) by by_computation.
  assert (H4 : ~ In "batch_id" (Frame.columns (mkFrame 1 [("Batch_ID", [VInt 1])]))).
  { cbn. intros [H | []]. discriminate H. }
  split; [by_computation |].
  exact (catalog_header_is_literal read_csv world_catalog_case _ H1 H2 H3 H4).
Defined.



End Examples.
